(** * engine-client: the Engine API request and authentication contract

    A shallow embedding of [main.go]: the [EngineClient] struct, the JWT it
    mints for every request, the JSON-RPC envelope it posts and the way it
    reports the answer.  The Go standard library and [golang-jwt/jwt/v4] are
    embedded as far as the client uses them: [encoding/json] (Marshal, and
    Decode into a map), [encoding/base64] (RawURLEncoding), [crypto/sha256],
    [crypto/hmac], [fmt.Errorf], [errors.Is], the wall clock and the HTTP
    round trip.  The clock and the network are the environment: they are
    fields of the [World] the client runs in. *)

From Stdlib Require Import ZArith List String Ascii Bool Lia DecimalString.
From Stdlib.Strings Require Import Byte.
From Stdlib Require DecimalPos DecimalZ HexadecimalString.
Import ListNotations.
#[local] Set Warnings "-register-all".
Local Open Scope string_scope.
Local Open Scope list_scope.
Local Open Scope Z_scope.

Infix "+++" := String.append (right associativity, at level 60).

(** ** Bytes and strings *)

(** A Go [[]byte] is a [list byte]; a Go [string] is a [string]. *)
Definition bytes := list byte.

Definition byte_to_Z (b : byte) : Z := Z.of_N (Byte.to_N b).

Definition byte_of_Z (z : Z) : byte :=
  match Byte.of_N (Z.to_N z) with
  | Some b => b
  | None => x00
  end.

Definition bytes_of_string (s : string) : bytes := list_byte_of_string s.
Definition string_of_bytes (b : bytes) : string := string_of_list_byte b.

Definition Z_of_ascii (a : ascii) : Z := Z.of_N (N_of_ascii a).

(** [strconv.Itoa] / the verb [%d]: decimal, with a minus sign. *)
Definition Itoa (n : Z) : string := NilZero.string_of_int (Z.to_int n).


(** ** encoding/base64: RawURLEncoding

    The URL-safe alphabet without padding.  A group of three bytes is a 24-bit
    number cut into four 6-bit digits; Go writes this with shifts and masks,
    the same numbers are written here with [/] and [mod]. *)
Module base64.

Definition encodeURL : string :=
  "ABCDEFGHIJKLMNOPQRSTUVWXYZabcdefghijklmnopqrstuvwxyz0123456789-_".

(** [enc.encode[i]]. *)
Definition encode (i : Z) : ascii :=
  match String.get (Z.to_nat i) encodeURL with
  | Some c => c
  | None => "A"%char
  end.

Fixpoint index_from (c : ascii) (s : string) (i : Z) : option Z :=
  match s with
  | EmptyString => None
  | String d s' => if Ascii.eqb c d then Some i else index_from c s' (i + 1)
  end.

(** [enc.decodeMap[c]], [None] where Go has 0xFF. *)
Definition decode (c : ascii) : option Z := index_from c encodeURL 0.

Fixpoint EncodeToString (src : bytes) : string :=
  match src with
  | [] => ""
  | a :: src1 =>
    match src1 with
    | [] =>
      let val := byte_to_Z a * 65536 in
      String (encode (val / 262144)) (String (encode (val / 4096 mod 64)) EmptyString)
    | b :: src2 =>
      match src2 with
      | [] =>
        let val := byte_to_Z a * 65536 + byte_to_Z b * 256 in
        String (encode (val / 262144))
          (String (encode (val / 4096 mod 64))
             (String (encode (val / 64 mod 64)) ""))
      | c :: rest =>
        let val := byte_to_Z a * 65536 + byte_to_Z b * 256 + byte_to_Z c in
        String (encode (val / 262144))
          (String (encode (val / 4096 mod 64))
             (String (encode (val / 64 mod 64))
                (String (encode (val mod 64)) (EncodeToString rest))))
      end
    end
  end.

(** [DecodeString] in the default (non-strict) mode: the unused low bits of a
    short last group are dropped without a check.  A lone trailing character
    and a character outside the alphabet are [CorruptInputError]s ([None]).
    Go skips line breaks in the input; the segments of a token hold none and
    they are not skipped here. *)
Fixpoint DecodeString (s : string) : option bytes :=
  match s with
  | EmptyString => Some []
  | String c1 s1 =>
    match s1 with
    | EmptyString => None
    | String c2 s2 =>
      match decode c1, decode c2 with
      | Some d1, Some d2 =>
        match s2 with
        | EmptyString =>
          let val := d1 * 262144 + d2 * 4096 in
          Some [byte_of_Z (val / 65536)]
        | String c3 s3 =>
          match decode c3 with
          | Some d3 =>
            match s3 with
            | EmptyString =>
              let val := d1 * 262144 + d2 * 4096 + d3 * 64 in
              Some [byte_of_Z (val / 65536); byte_of_Z (val / 256 mod 256)]
            | String c4 rest =>
              match decode c4, DecodeString rest with
              | Some d4, Some tl =>
                let val := d1 * 262144 + d2 * 4096 + d3 * 64 + d4 in
                Some (byte_of_Z (val / 65536) :: byte_of_Z (val / 256 mod 256)
                        :: byte_of_Z (val mod 256) :: tl)
              | _, _ => None
              end
            end
          | None => None
          end
        end
      | _, _ => None
      end
    end
  end.

End base64.

(** ** crypto/sha256 and crypto/hmac

    32-bit words are [Z] in [0, 2^32), with the wrap-around written out. *)
Module sha256.

Definition wrap (x : Z) : Z := x mod 4294967296.
Definition add32 (x y : Z) : Z := wrap (x + y).
Definition rotr (n x : Z) : Z :=
  Z.lor (Z.shiftr x n) (wrap (Z.shiftl x (32 - n))).
Definition not32 (x : Z) : Z := 4294967295 - x.

Definition Ch (x y z : Z) : Z := Z.lxor (Z.land x y) (Z.land (not32 x) z).
Definition Maj (x y z : Z) : Z :=
  Z.lxor (Z.lxor (Z.land x y) (Z.land x z)) (Z.land y z).
Definition bsig0 (x : Z) : Z := Z.lxor (Z.lxor (rotr 2 x) (rotr 13 x)) (rotr 22 x).
Definition bsig1 (x : Z) : Z := Z.lxor (Z.lxor (rotr 6 x) (rotr 11 x)) (rotr 25 x).
Definition ssig0 (x : Z) : Z := Z.lxor (Z.lxor (rotr 7 x) (rotr 18 x)) (Z.shiftr x 3).
Definition ssig1 (x : Z) : Z := Z.lxor (Z.lxor (rotr 17 x) (rotr 19 x)) (Z.shiftr x 10).

(** The tables [_K] and [init0..init7] are the fractional parts of the cube
    roots and of the square roots of the first primes; they are computed
    here rather than listed. *)
Definition is_prime (p : Z) : bool :=
  forallb (fun d => negb (p mod d =? 0) || (p <=? d))
          (map Z.of_nat (seq 2 18)).

Definition primes64 : list Z :=
  filter is_prime (map Z.of_nat (seq 2 310)).

Definition cube_root (n : Z) : Z :=
  fold_left (fun r b => let r' := r + 2 ^ b in
                        if r' * r' * r' <=? n then r' else r)
            (map Z.of_nat (rev (seq 0 44))) 0.

Definition _K : list Z :=
  Eval vm_compute in map (fun p => wrap (cube_root (p * 2 ^ 96))) primes64.

Definition init : list Z :=
  Eval vm_compute in map (fun p => wrap (Z.sqrt (p * 2 ^ 64))) (firstn 8 primes64).

(** Big-endian words of a 64-byte block. *)
Fixpoint words (p : list Z) : list Z :=
  match p with
  | a :: b :: c :: d :: rest =>
    (a * 16777216 + b * 65536 + c * 256 + d) :: words rest
  | _ => []
  end.

(** The message schedule, newest word first: [w] holds w[t-1], w[t-2], ... *)
Fixpoint schedule (n : nat) (w : list Z) : list Z :=
  match n with
  | O => w
  | S n' =>
    let v1 := nth 1 w 0 in
    let v2 := nth 14 w 0 in
    let t1 := ssig1 v1 in
    let t2 := ssig0 v2 in
    schedule n' (add32 (add32 (add32 t1 (nth 6 w 0)) t2) (nth 15 w 0) :: w)
  end.

Record regs := Regs { ra : Z; rb : Z; rc : Z; rd : Z; re : Z; rf : Z; rg : Z; rh : Z }.

Definition round (r : regs) (kw : Z * Z) : regs :=
  let '(k, w) := kw in
  let t1 := add32 (add32 (add32 (add32 (rh r) (bsig1 (re r))) (Ch (re r) (rf r) (rg r))) k) w in
  let t2 := add32 (bsig0 (ra r)) (Maj (ra r) (rb r) (rc r)) in
  Regs (add32 t1 t2) (ra r) (rb r) (rc r) (add32 (rd r) t1) (re r) (rf r) (rg r).

(** [blockGeneric] on one 64-byte block. *)
Definition block (h : regs) (p : list Z) : regs :=
  let w := rev (schedule 48 (rev (words p))) in
  let r := fold_left round (combine _K w) h in
  Regs (add32 (ra h) (ra r)) (add32 (rb h) (rb r)) (add32 (rc h) (rc r))
       (add32 (rd h) (rd r)) (add32 (re h) (re r)) (add32 (rf h) (rf r))
       (add32 (rg h) (rg r)) (add32 (rh h) (rh r)).

Fixpoint blocks (n : nat) (h : regs) (p : list Z) : regs :=
  match n with
  | O => h
  | S n' => blocks n' (block h (firstn 64 p)) (skipn 64 p)
  end.

Definition be_bytes (n : nat) (x : Z) : list Z :=
  map (fun i => (x / 256 ^ Z.of_nat i) mod 256) (rev (seq 0 n)).

(** Padding: 0x80, zeros up to 56 mod 64, then the bit length on 8 bytes. *)
Definition pad (m : list Z) : list Z :=
  let len := Z.of_nat (List.length m) in
  let zeros := Z.to_nat ((55 - len) mod 64) in
  m ++ 128 :: repeat 0 zeros ++ be_bytes 8 (len * 8).

Definition init_regs : regs :=
  Regs (nth 0 init 0) (nth 1 init 0) (nth 2 init 0) (nth 3 init 0)
       (nth 4 init 0) (nth 5 init 0) (nth 6 init 0) (nth 7 init 0).

(** [sha256.Sum256]. *)
Definition Sum256 (data : bytes) : bytes :=
  let p := pad (map byte_to_Z data) in
  let r := blocks (List.length p / 64) init_regs p in
  map byte_of_Z
      (flat_map (be_bytes 4) [ra r; rb r; rc r; rd r; re r; rf r; rg r; rh r]).

Definition BlockSize : nat := 64.

End sha256.

Module hmac.

Definition xor_pad (c : Z) (key : bytes) : bytes :=
  map (fun b => byte_of_Z (Z.lxor (byte_to_Z b) c))
      (key ++ repeat x00 (sha256.BlockSize - List.length key)).

(** [hmac.New(sha256.New, key)], [Write(msg)], [Sum(nil)]: a key longer than
    the block size is hashed first. *)
Definition Sum (key msg : bytes) : bytes :=
  let key' := if (sha256.BlockSize <? List.length key)%nat
              then sha256.Sum256 key else key in
  sha256.Sum256 (xor_pad 92 key' ++ sha256.Sum256 (xor_pad 54 key' ++ msg)).

Fixpoint bytes_eqb (a b : bytes) : bool :=
  match a, b with
  | [], [] => true
  | x :: a', y :: b' => Byte.eqb x y && bytes_eqb a' b'
  | _, _ => false
  end.

(** [hmac.Equal]. *)
Definition Equal (a b : bytes) : bool := bytes_eqb a b.

End hmac.

(** ** Go values

    What an [interface{}] can hold, as far as this program is concerned.  A
    map is kept as its list of entries in increasing key order (Go maps have
    no order of their own; [encoding/json] writes them in key order).  A
    float64 is kept as the decimal literal it was read from.  [VUnsupported]
    stands for the values [encoding/json] refuses: channels, functions,
    complex numbers, NaN and the infinities. *)
Inductive value : Type :=
| VNil
| VBool (b : bool)
| VInt (n : Z)
| VFloat (lit : string)
| VString (s : string)
| VSlice (xs : list value)
| VMap (m : list (string * value))
| VStruct (fields : list (string * value))
| VPtr (v : value)
| VUnsupported (what : string).

(** [map[string]interface{}]. *)
Definition gomap := list (string * value).

(** [m[k] = v]. *)
Fixpoint map_set {A} (k : string) (v : A) (m : list (string * A)) : list (string * A) :=
  match m with
  | [] => [(k, v)]
  | (k', v') :: m' =>
    match String.compare k k' with
    | Lt => (k, v) :: m
    | Eq => (k, v) :: m'
    | Gt => (k', v') :: map_set k v m'
    end
  end.

(** [m[k]]. *)
Fixpoint map_get {A} (k : string) (m : list (string * A)) : option A :=
  match m with
  | [] => None
  | (k', v) :: m' => if String.eqb k k' then Some v else map_get k m'
  end.

(** A map literal: the entries are stored one after the other. *)
Definition map_lit {A} (entries : list (string * A)) : list (string * A) :=
  fold_left (fun m kv => map_set (fst kv) (snd kv) m) entries [].

Definition map_keys {A} (m : list (string * A)) : list string := map fst m.

(** ** Errors

    The [error] values that reach this program.  [errorString] is what
    [errors.New] and [fmt.Errorf] without [%w] build: a message and nothing
    else.  [Canceled], [DeadlineExceeded] and [EOF] are the package-level
    values of [context] and [io].  [urlError] is [*url.Error], the one error
    here with an [Unwrap]. *)
Inductive error : Type :=
| errorString (s : string)
| Canceled
| DeadlineExceeded
| EOF
| SyntaxError (msg : string)
| UnmarshalTypeError (Value : string) (Type_ : string)
| UnsupportedTypeError (what : string)
| urlError (Op : string) (URL : string) (Err : error).

Definition dq : string := String "034"%char EmptyString.

(** [err.Error()].  [%q] of a URL is taken to be the URL between quotes. *)
Fixpoint Error (e : error) : string :=
  match e with
  | errorString s => s
  | Canceled => "context canceled"
  | DeadlineExceeded => "context deadline exceeded"
  | EOF => "EOF"
  | SyntaxError msg => msg
  | UnmarshalTypeError v t =>
    "json: cannot unmarshal " +++ v +++ " into Go value of type " +++ t
  | UnsupportedTypeError what => "json: unsupported " +++ what
  | urlError op url err => op +++ " " +++ dq +++ url +++ dq +++ ": " +++ Error err
  end.



(** [fmt.Errorf(prefix + "%v", err)] and [fmt.Errorf(prefix + "%d", n)]. *)
Definition Errorf_v (prefix : string) (err : error) : error :=
  errorString (prefix +++ Error err).
Definition Errorf_d (prefix : string) (n : Z) : error :=
  errorString (prefix +++ Itoa n).

(** ** encoding/json *)
Inductive json : Type :=
| JNull
| JBool (b : bool)
| JNumber (lit : string)
| JString (s : string)
| JArray (items : list json)
| JObject (members : list (string * json)).

Module json_.

Definition hex_digit (z : Z) : ascii :=
  match String.get (Z.to_nat z) "0123456789abcdef" with
  | Some c => c
  | None => "0"%char
  end.

(** One byte of a string, as [encodeState.string] writes it with HTML
    escaping on.  Bytes from 0x80 are copied (the strings sent here are
    valid UTF-8 without U+2028 and U+2029). *)
Definition escape (c : ascii) : string :=
  let n := Z_of_ascii c in
  if (n =? 34) || (n =? 92) then String "\"%char (String c EmptyString)
  else if n =? 10 then "\n"
  else if n =? 13 then "\r"
  else if n =? 9 then "\t"
  else if (n <? 32) || (n =? 60) || (n =? 62) || (n =? 38)
       then "\u00" +++ String (hex_digit (n / 16)) (String (hex_digit (n mod 16)) EmptyString)
  else String c EmptyString.

Fixpoint escape_all (s : string) : string :=
  match s with
  | EmptyString => EmptyString
  | String c s' => escape c +++ escape_all s'
  end.

Definition quote (s : string) : string := dq +++ escape_all s +++ dq.

(** Items separated by commas. *)
Fixpoint commas (xs : list string) : string :=
  match xs with
  | [] => EmptyString
  | [x] => x
  | x :: rest => x +++ "," +++ commas rest
  end.

(** The compact text of a document. *)
Fixpoint render (j : json) : string :=
  match j with
  | JNull => "null"
  | JBool true => "true"
  | JBool false => "false"
  | JNumber lit => lit
  | JString s => quote s
  | JArray items => "[" +++ commas (map render items) +++ "]"
  | JObject members =>
    "{" +++ commas (map (fun kv => quote (fst kv) +++ ":" +++ render (snd kv)) members) +++ "}"
  end.

(** The first error of a list of results, or all the values. *)
Fixpoint sequence {A} (xs : list (error + A)) : error + list A :=
  match xs with
  | [] => inr []
  | inl e :: _ => inl e
  | inr a :: rest =>
    match sequence rest with
    | inl e => inl e
    | inr l => inr (a :: l)
    end
  end.

Definition sequence_members {A} (xs : list (string * (error + A)))
  : error + list (string * A) :=
  sequence (map (fun kv => match snd kv with
                           | inl e => inl e
                           | inr a => inr (fst kv, a)
                           end) xs).

(** Entries in increasing key order (the sort of [mapEncoder]). *)
Fixpoint insert_sorted {A} (kv : string * A) (l : list (string * A)) : list (string * A) :=
  match l with
  | [] => [kv]
  | kv' :: l' =>
    if String.leb (fst kv) (fst kv') then kv :: l else kv' :: insert_sorted kv l'
  end.

Definition sort_keys {A} (l : list (string * A)) : list (string * A) :=
  fold_right insert_sorted [] l.

(** The document [Marshal] writes for a value: nil pointers, maps and slices
    are [null], a pointer is what it points to, a struct is an object with
    its fields in declaration order under their [json] tags, a map is an
    object in key order. *)
Fixpoint encode (v : value) : error + json :=
  match v with
  | VNil => inr JNull
  | VBool b => inr (JBool b)
  | VInt n => inr (JNumber (Itoa n))
  | VFloat lit => inr (JNumber lit)
  | VString s => inr (JString s)
  | VSlice xs =>
    match sequence (map encode xs) with
    | inl e => inl e
    | inr items => inr (JArray items)
    end
  | VMap m =>
    match sequence_members (sort_keys (map (fun kv => (fst kv, encode (snd kv))) m)) with
    | inl e => inl e
    | inr members => inr (JObject members)
    end
  | VStruct fields =>
    match sequence_members (map (fun kv => (fst kv, encode (snd kv))) fields) with
    | inl e => inl e
    | inr members => inr (JObject members)
    end
  | VPtr v' => encode v'
  | VUnsupported what => inl (UnsupportedTypeError what)
  end.

(** [json.Marshal]. *)
Definition Marshal (v : value) : error + bytes :=
  match encode v with
  | inl e => inl e
  | inr j => inr (bytes_of_string (render j))
  end.

(** What [Unmarshal] stores into an [interface{}]: float64 for numbers,
    [[]interface{}] for arrays, [map[string]interface{}] for objects, where a
    repeated key keeps its last value. *)
Fixpoint decode_value (j : json) : value :=
  match j with
  | JNull => VNil
  | JBool b => VBool b
  | JNumber lit => VFloat lit
  | JString s => VString s
  | JArray items => VSlice (map decode_value items)
  | JObject members =>
    VMap (map_lit (map (fun kv => (fst kv, decode_value (snd kv))) members))
  end.

Definition decode_object (members : list (string * json)) : gomap :=
  map_lit (map (fun kv => (fst kv, decode_value (snd kv))) members).

(** What the decoder finds on a stream: the first JSON value and the bytes
    after it, which [Decode] does not read; or no value at all. *)
Inductive stream : Type :=
| Value (j : json) (rest : bytes)
| Malformed (msg : string)
| Empty
| ReadFailed (err : error).

Definition json_kind (j : json) : string :=
  match j with
  | JNull => "null"
  | JBool _ => "bool"
  | JNumber _ => "number"
  | JString _ => "string"
  | JArray _ => "array"
  | JObject _ => "object"
  end.

(** [json.NewDecoder(r).Decode(&result)] for [var result
    map[string]interface{}], which is nil before the call: the map after the
    call ([None] is the nil map) and the error. *)
Definition Decode (r : stream) : option gomap * option error :=
  match r with
  | Value (JObject members) _ => (Some (decode_object members), None)
  | Value JNull _ => (None, None)
  | Value j _ =>
    (None, Some (UnmarshalTypeError (json_kind j) "map[string]interface {}"))
  | Malformed msg => (None, Some (SyntaxError msg))
  | Empty => (None, Some EOF)
  | ReadFailed err => (None, Some err)
  end.

End json_.

(** ** time *)
Module time.

(** A [time.Time] is its wall-clock reading, in nanoseconds since the Unix
    epoch; a [time.Duration] is a number of nanoseconds. *)
Definition Time := Z.
Definition Duration := Z.

Definition Second : Duration := 1000000000.
Definition Minute : Duration := 60 * Second.

Definition Add (t : Time) (d : Duration) : Time := t + d.

(** [t.Unix()]: whole seconds since the epoch. *)
Definition Unix (t : Time) : Z := t / Second.

End time.

(** ** context *)
Inductive Context : Type :=
| nilContext                    (* a nil interface *)
| liveContext                   (* not done when the call is made *)
| doneContext (err : error).    (* already done: ctx.Err() is [err] *)

(** ** net/http *)
Module http.

Definition StatusOK : Z := 200.

Record Client := { Timeout : time.Duration }.

Record Request := {
  Method : string;
  URL : string;
  Header : list (string * string);
  reqBody : bytes;
  reqCtx : Context
}.

Record Response := {
  StatusCode : Z;
  Body : json_.stream
}.

(** What a round trip gives: an error of the transport (connection refused,
    the context cancelled or past its deadline, the client's timeout), or
    the server's response. *)
Inductive Exchange : Type :=
| Failed (err : error)
| Answered (resp : Response).

(** [req.Header.Set(key, value)], for keys already in canonical form. *)
Definition Header_Set (key val : string) (r : Request) : Request :=
  {| Method := Method r; URL := URL r;
     Header := map_set key val (Header r);
     reqBody := reqBody r; reqCtx := reqCtx r |}.

Definition Header_Get (key : string) (r : Request) : string :=
  match map_get key (Header r) with
  | Some v => v
  | None => EmptyString
  end.

End http.

(** ** golang-jwt/jwt/v4 *)
Module jwt.

Inductive SigningMethod : Type := SigningMethodHS256.

Definition Alg (m : SigningMethod) : string := "HS256".

Definition MapClaims := gomap.

Record Token := {
  Header : gomap;
  Claims : MapClaims;
  Method : SigningMethod
}.

Definition NewWithClaims (method : SigningMethod) (claims : MapClaims) : Token :=
  {| Header := map_lit [("typ", VString "JWT"); ("alg", VString (Alg method))];
     Claims := claims;
     Method := method |}.

Definition EncodeSegment (seg : bytes) : string := base64.EncodeToString seg.
Definition DecodeSegment (seg : string) : option bytes := base64.DecodeString seg.

Definition SigningString (t : Token) : error + string :=
  match json_.Marshal (VMap (Header t)) with
  | inl err => inl err
  | inr jsonValue =>
    let header := EncodeSegment jsonValue in
    match json_.Marshal (VMap (Claims t)) with
    | inl err => inl err
    | inr jsonValue =>
      let claim := EncodeSegment jsonValue in
      inr (header +++ "." +++ claim)
    end
  end.

(** [SigningMethodHMAC.Sign] with a [[]byte] key (the only key this program
    passes) and SHA-256 linked in. *)
Definition Sign (m : SigningMethod) (signingString : string) (key : bytes)
  : error + string :=
  inr (EncodeSegment (hmac.Sum key (bytes_of_string signingString))).

(** [token.SignedString(key)]: the token and the error, as Go returns them. *)
Definition SignedString (t : Token) (key : bytes) : string * option error :=
  match SigningString t with
  | inl err => (EmptyString, Some err)
  | inr sstr =>
    match Sign (Method t) sstr key with
    | inl err => (EmptyString, Some err)
    | inr sig => (sstr +++ "." +++ sig, None)
    end
  end.

Definition ErrSignatureInvalid : error := errorString "signature is invalid".

(** [SigningMethodHMAC.Verify]: nil when the signature is the HMAC of the
    signing string. *)
Definition Verify (m : SigningMethod) (signingString signature : string)
           (key : bytes) : option error :=
  match DecodeSegment signature with
  | None => Some (errorString "illegal base64 data")
  | Some sig =>
    if hmac.Equal sig (hmac.Sum key (bytes_of_string signingString))
    then None else Some ErrSignatureInvalid
  end.

(** [strings.Split(s, ".")]. *)
Fixpoint split_dots (s : string) : list string :=
  match s with
  | EmptyString => [EmptyString]
  | String c s' =>
    if Ascii.eqb c "."%char then EmptyString :: split_dots s'
    else match split_dots s' with
         | [] => [String c EmptyString]
         | p :: ps => String c p :: ps
         end
  end.

(** The signature check of [Parser.ParseWithClaims]: three segments, and the
    third verifies for the first two. *)
Definition signature_verifies (tokenString : string) (key : bytes) : bool :=
  match split_dots tokenString with
  | [h; c; sig] =>
    match Verify SigningMethodHS256 (h +++ "." +++ c) sig key with
    | None => true
    | Some _ => false
    end
  | _ => false
  end.

(** The second segment decoded, and the third segment: what
    [Parser.ParseUnverified] reads the claims and the signature from. *)
Definition payload (tokenString : string) : option string :=
  match split_dots tokenString with
  | [_; c; _] => option_map string_of_bytes (DecodeSegment c)
  | _ => None
  end.

Definition signature (tokenString : string) : option string :=
  match split_dots tokenString with
  | [_; _; sig] => Some sig
  | _ => None
  end.

End jwt.

(** ** The client *)

Record EngineClient := {
  endpoint : string;
  jwtSecret : bytes;
  client : http.Client
}.

Record PayloadAttributes := {
  Timestamp : string;
  PrevRandao : string;
  SuggestedFeeRecipient : string
}.

Record ForkChoiceState := {
  HeadBlockHash : string;
  SafeBlockHash : string;
  FinalizedBlockHash : string
}.

(** The two structs as [interface{}] values, fields under their json tags. *)
Definition value_of_attributes (a : PayloadAttributes) : value :=
  VStruct [("timestamp", VString (Timestamp a));
           ("prevRandao", VString (PrevRandao a));
           ("suggestedFeeRecipient", VString (SuggestedFeeRecipient a))].

Definition value_of_state (s : ForkChoiceState) : value :=
  VStruct [("headBlockHash", VString (HeadBlockHash s));
           ("safeBlockHash", VString (SafeBlockHash s));
           ("finalizedBlockHash", VString (FinalizedBlockHash s))].

(** A [map[string]interface{}] argument, which may be the nil map. *)
Definition value_of_map (m : option gomap) : value :=
  match m with
  | None => VNil
  | Some m => VMap m
  end.

Definition NewEngineClient (endpoint : string) (jwtSecret : bytes) : EngineClient :=
  {| endpoint := endpoint;
     jwtSecret := jwtSecret;
     client := {| http.Timeout := 10 * time.Second |} |}.

(** ** The world the client runs in

    [self] is the struct the receiver [c] points to.  The wall clock is the
    sequence of its readings, one per call of [time.Now].  [parseURL] is
    [url.Parse] (the error it gives for a URL, if any) and [roundTrip] is the
    network with the server behind it, given the requests sent before.
    [wire] lists the requests handed to the transport, oldest first, and
    [closed] counts the response bodies closed. *)
Record World := {
  self : EngineClient;
  wall : nat -> time.Time;
  ticks : nat;
  parseURL : string -> option error;
  roundTrip : list http.Request -> http.Request -> http.Exchange;
  wire : list http.Request;
  closed : nat
}.

Definition M (A : Type) : Type := World -> A * World.

Definition ret {A} (a : A) : M A := fun w => (a, w).

Definition bind {A B} (m : M A) (k : A -> M B) : M B :=
  fun w => let (a, w') := m w in k a w'.

Notation "x <- m ;; k" := (bind m (fun x => k))
  (at level 61, m at next level, right associativity).
Notation "m ;;; k" := (bind m (fun _ => k))
  (at level 61, right associativity).

(** The receiver: [*c]. *)
Definition this : M EngineClient := fun w => (self w, w).

(** The three ways the world changes. *)
Definition set_ticks (n : nat) (w : World) : World :=
  {| self := self w; wall := wall w; ticks := n;
     parseURL := parseURL w; roundTrip := roundTrip w;
     wire := wire w; closed := closed w |}.

Definition log_request (req : http.Request) (w : World) : World :=
  {| self := self w; wall := wall w; ticks := ticks w;
     parseURL := parseURL w; roundTrip := roundTrip w;
     wire := wire w ++ [req]; closed := closed w |}.

Definition count_close (w : World) : World :=
  {| self := self w; wall := wall w; ticks := ticks w;
     parseURL := parseURL w; roundTrip := roundTrip w;
     wire := wire w; closed := S (closed w) |}.

(** [time.Now()]. *)
Definition time_Now : M time.Time :=
  fun w => (wall w (ticks w), set_ticks (S (ticks w)) w).

(** [http.NewRequestWithContext(ctx, method, url, bytes.NewReader(body))],
    for a valid method. *)
Definition http_NewRequestWithContext (ctx : Context) (method url : string)
           (body : bytes) : M (error + http.Request) :=
  fun w =>
    match ctx with
    | nilContext => (inl (errorString "net/http: nil Context"), w)
    | _ =>
      match parseURL w url with
      | Some err => (inl (urlError "parse" url err), w)
      | None =>
        (inr {| http.Method := method; http.URL := url; http.Header := [];
                http.reqBody := body; http.reqCtx := ctx |}, w)
      end
    end.

(** [c.Do(req)] for a POST: a context that is already done fails the call
    before anything is sent; otherwise the request goes to the transport. *)
Definition Client_Do (c : http.Client) (req : http.Request)
  : M (error + http.Response) :=
  fun w =>
    match http.reqCtx req with
    | doneContext err => (inl (urlError "Post" (http.URL req) err), w)
    | _ =>
      match roundTrip w (wire w) req with
      | http.Failed err =>
        (inl (urlError "Post" (http.URL req) err), log_request req w)
      | http.Answered resp => (inr resp, log_request req w)
      end
    end.

(** [resp.Body.Close()]. *)
Definition Body_Close (resp : http.Response) : M unit :=
  fun w => (tt, count_close w).

(** The claims map [generateJWT] builds from two readings of the clock. *)
Definition jwt_claims (now1 now2 : time.Time) : jwt.MapClaims :=
  map_lit [("iat", VInt (time.Unix now1));
           ("exp", VInt (time.Unix (time.Add now2 time.Minute)))].

Definition generateJWT : M (string * option error) :=
  c <- this ;;
  now1 <- time_Now ;;
  now2 <- time_Now ;;
  let claims := jwt_claims now1 now2 in
  let token := jwt.NewWithClaims jwt.SigningMethodHS256 claims in
  ret (jwt.SignedString token (jwtSecret c)).

(** The JSON-RPC request object of [makeRequest]. *)
Definition rpc_request (method : string) (params : value) : value :=
  VMap (map_lit [("jsonrpc", VString "2.0");
                 ("method", VString method);
                 ("params", params);
                 ("id", VInt 1)]).

Definition makeRequest (ctx : Context) (method : string) (params : value)
  : M (option gomap * option error) :=
  let request := rpc_request method params in
  match json_.Marshal request with
  | inl err => ret (None, Some (Errorf_v "failed to marshal request: " err))
  | inr requestBody =>
    r <- generateJWT ;;
    match r with
    | (_, Some err) => ret (None, Some err)
    | (token, None) =>
      c <- this ;;
      r <- http_NewRequestWithContext ctx "POST" (endpoint c) requestBody ;;
      match r with
      | inl err => ret (None, Some (Errorf_v "failed to create request: " err))
      | inr req =>
        let req := http.Header_Set "Content-Type" "application/json" req in
        let req := http.Header_Set "Authorization" ("Bearer " +++ token) req in
        c <- this ;;
        r <- Client_Do (client c) req ;;
        match r with
        | inl err => ret (None, Some (Errorf_v "failed to make request: " err))
        | inr resp =>
          out <-
            (if negb (http.StatusCode resp =? http.StatusOK)
             then ret (None, Some (Errorf_d "unexpected HTTP status: " (http.StatusCode resp)))
             else
               match json_.Decode (http.Body resp) with
               | (_, Some err) =>
                 ret (None, Some (Errorf_v "failed to decode response: " err))
               | (result, None) => ret (result, None)
               end) ;;
          Body_Close resp ;;;
          ret out
        end
      end
    end
  end.

(** ForkchoiceUpdated sends a forkchoiceUpdated request. *)
Definition ForkchoiceUpdated (ctx : Context) (state : ForkChoiceState)
           (attributes : option PayloadAttributes)
  : M (option gomap * option error) :=
  let params := [value_of_state state] in
  let params := match attributes with
                | Some a => params ++ [VPtr (value_of_attributes a)]
                | None => params
                end in
  makeRequest ctx "engine_forkchoiceUpdatedV1" (VSlice params).

(** NewPayload sends a newPayload request. *)
Definition NewPayload (ctx : Context) (payload : option gomap)
  : M (option gomap * option error) :=
  makeRequest ctx "engine_newPayloadV1" (VSlice [value_of_map payload]).

(** ** Vocabulary of the statements *)

(** A string without the character [d]. *)
Fixpoint free_of (d : ascii) (s : string) : Prop :=
  match s with
  | EmptyString => True
  | String c s' => c <> d /\ free_of d s'
  end.

(** The JOSE header and the claims of a token as JSON text, and the compact
    token over them: what [SignedString] comes to for HS256. *)
Definition header_text : string :=
  json_.render (JObject [("alg", JString "HS256"); ("typ", JString "JWT")]).

Definition claims_text (iat exp : Z) : string :=
  json_.render (JObject [("exp", JNumber (Itoa exp)); ("iat", JNumber (Itoa iat))]).

Definition compact (key : bytes) (header claims : string) : string :=
  let sstr := jwt.EncodeSegment (bytes_of_string header) +++ "."
              +++ jwt.EncodeSegment (bytes_of_string claims) in
  sstr +++ "." +++ jwt.EncodeSegment (hmac.Sum key (bytes_of_string sstr)).

(** The two public operations. *)
Inductive Operation : Type :=
| OpForkchoiceUpdated (state : ForkChoiceState) (attributes : option PayloadAttributes)
| OpNewPayload (payload : option gomap).

Definition invoke (ctx : Context) (op : Operation) : M (option gomap * option error) :=
  match op with
  | OpForkchoiceUpdated state attributes => ForkchoiceUpdated ctx state attributes
  | OpNewPayload payload => NewPayload ctx payload
  end.

Definition method_of (op : Operation) : string :=
  match op with
  | OpForkchoiceUpdated _ _ => "engine_forkchoiceUpdatedV1"
  | OpNewPayload _ => "engine_newPayloadV1"
  end.

(** The requests a computation hands to the transport. *)
Definition sent {A} (m : M A) (w : World) : list http.Request :=
  skipn (List.length (wire w)) (wire (snd (m w))).

(** The token [generateJWT] mints in a world, the request [makeRequest]
    builds around a body, and what it returns for a response. *)
Definition minted (w : World) : string :=
  compact (jwtSecret (self w)) header_text
    (claims_text (time.Unix (wall w (ticks w)))
                 (time.Unix (time.Add (wall w (S (ticks w))) time.Minute))).

Definition outbound (w : World) (ctx : Context) (body : bytes) : http.Request :=
  {| http.Method := "POST";
     http.URL := endpoint (self w);
     http.Header := [("Authorization", "Bearer " +++ minted w);
                     ("Content-Type", "application/json")];
     http.reqBody := body;
     http.reqCtx := ctx |}.

Definition answer (resp : http.Response) : option gomap * option error :=
  if negb (http.StatusCode resp =? http.StatusOK)
  then (None, Some (Errorf_d "unexpected HTTP status: " (http.StatusCode resp)))
  else match json_.Decode (http.Body resp) with
       | (_, Some err) => (None, Some (Errorf_v "failed to decode response: " err))
       | (result, None) => (result, None)
       end.

Definition no_request : http.Request :=
  {| http.Method := EmptyString; http.URL := EmptyString; http.Header := [];
     http.reqBody := []; http.reqCtx := nilContext |}.

(** The JSON-RPC envelope as a document. *)
Definition envelope (method : string) (params : json) : json :=
  JObject [("id", JNumber "1");
           ("jsonrpc", JString "2.0");
           ("method", JString method);
           ("params", params)].

Definition state_json (s : ForkChoiceState) : json :=
  JObject [("headBlockHash", JString (HeadBlockHash s));
           ("safeBlockHash", JString (SafeBlockHash s));
           ("finalizedBlockHash", JString (FinalizedBlockHash s))].

Definition attributes_json (a : PayloadAttributes) : json :=
  JObject [("timestamp", JString (Timestamp a));
           ("prevRandao", JString (PrevRandao a));
           ("suggestedFeeRecipient", JString (SuggestedFeeRecipient a))].






(** ** Worlds to run the client in

    A client for [http://localhost:8551] with the secret [test-secret], a
    clock that starts at [start] and gains [step] nanoseconds per reading,
    and a server that gives the same answer to every request. *)
Definition demo_client : EngineClient :=
  NewEngineClient "http://localhost:8551" (bytes_of_string "test-secret").

Definition demo_world (start step : Z) (answer : http.Exchange) : World :=
  {| self := demo_client;
     wall := fun n => start + step * Z.of_nat n;
     ticks := 0;
     parseURL := fun _ => None;
     roundTrip := fun _ _ => answer;
     wire := [];
     closed := 0 |}.

Definition answer_with (status : Z) (body : json_.stream) : http.Exchange :=
  http.Answered {| http.StatusCode := status; http.Body := body |}.

Definition syncing : json_.stream :=
  json_.Value (JObject [("status", JString "SYNCING")]) [].

Definition demo_state : ForkChoiceState :=
  {| HeadBlockHash := "0x1234567890abcdef1234567890abcdef1234567890abcdef1234567890abcdef";
     SafeBlockHash := "0xabcdef1234567890abcdef1234567890abcdef1234567890abcdef1234567890";
     FinalizedBlockHash := "0x7890abcdef1234567890abcdef1234567890abcdef1234567890abcdef123456" |}.

Definition demo_attributes : PayloadAttributes :=
  {| Timestamp := "0x6553f100";
     PrevRandao := "0xabcdefabcdefabcdefabcdefabcdefabcdefabcdefabcdefabcdefabcdef";
     SuggestedFeeRecipient := "0xabc123abc123abc123abc123abc123abc123abc1" |}.

(** ** The program

    [main] runs in a world whose clock and network are given; the variables
    of the process environment are the function [getenv], and what the
    program writes to standard output is returned, one string per call of
    [fmt.Println] or [fmt.Printf]. *)

(** The receiver of the calls that follow is the struct [c]. *)
Definition with_self (c : EngineClient) (w : World) : World :=
  {| self := c; wall := wall w; ticks := ticks w;
     parseURL := parseURL w; roundTrip := roundTrip w;
     wire := wire w; closed := closed w |}.












(** * Facts *)

(** ** Bytes *)

Lemma byte_of_to_Z (b : byte) : byte_of_Z (byte_to_Z b) = b.
Proof.
  unfold byte_of_Z, byte_to_Z. rewrite N2Z.id, Byte.of_to_N. reflexivity.
Qed.

Lemma byte_to_Z_range (b : byte) : 0 <= byte_to_Z b < 256.
Proof.
  unfold byte_to_Z. pose proof (Byte.to_N_bounded b). lia.
Qed.

Lemma bytes_eqb_refl (a : bytes) : hmac.bytes_eqb a a = true.
Proof.
  induction a as [|x a IH]; simpl; [reflexivity|].
  rewrite IH, andb_true_r. apply Byte.byte_dec_lb. reflexivity.
Qed.

(** ** Strings cut at a delimiter *)

Lemma append_assoc (s t u : string) : (s +++ t) +++ u = s +++ t +++ u.
Proof. induction s as [|c s IH]; simpl; [reflexivity | now rewrite IH]. Qed.


Section Delimiter.

Variable d : ascii.

Lemma free_of_app s t : free_of d s -> free_of d t -> free_of d (s +++ t).
Proof.
  induction s as [|c s IH]; simpl; [tauto|]. intros [Hc Hs] Ht. auto.
Qed.

(** Two strings cut at their first [d] are equal part by part. *)
Lemma cut_unique s1 s2 t1 t2 :
  free_of d s1 -> free_of d s2 ->
  s1 +++ String d t1 = s2 +++ String d t2 -> s1 = s2 /\ t1 = t2.
Proof.
  revert s2. induction s1 as [|c s1 IH]; intros [|c2 s2]; simpl.
  - intros _ _ H. injection H. auto.
  - intros _ [Hc _] H. injection H as H1 _. congruence.
  - intros [Hc _] _ H. injection H as H1 _. congruence.
  - intros [_ H1] [_ H2] H. injection H as Hc Hs.
    destruct (IH _ H1 H2 Hs) as [-> ->]. subst. auto.
Qed.

End Delimiter.

(** ** base64 *)

Lemma get_In n s c :
  String.get n s = Some c -> In c (list_ascii_of_string s).
Proof.
  revert n. induction s as [|d s IH]; intros [|n]; simpl; try discriminate.
  - intros [= ->]. auto.
  - intros H. right. eauto.
Qed.

Lemma encode_in_alphabet i :
  In (base64.encode i) (list_ascii_of_string base64.encodeURL).
Proof.
  unfold base64.encode.
  destruct (String.get (Z.to_nat i) base64.encodeURL) eqn:E.
  - eapply get_In; eauto.
  - simpl. auto.
Qed.

Lemma encode_not_dot i : base64.encode i <> "."%char.
Proof.
  assert (H : forallb (fun c => negb (Ascii.eqb c "."%char))
                      (list_ascii_of_string base64.encodeURL) = true)
    by (vm_compute; reflexivity).
  rewrite forallb_forall in H. specialize (H _ (encode_in_alphabet i)).
  intros E. rewrite E in H. discriminate.
Qed.

Lemma decode_encode i :
  0 <= i < 64 -> base64.decode (base64.encode i) = Some i.
Proof.
  intros Hi.
  assert (H : forallb (fun n => match base64.decode (base64.encode (Z.of_nat n)) with
                                | Some j => j =? Z.of_nat n
                                | None => false
                                end) (seq 0 64) = true)
    by (vm_compute; reflexivity).
  rewrite forallb_forall in H. specialize (H (Z.to_nat i)).
  rewrite Z2Nat.id in H by lia.
  destruct (base64.decode (base64.encode i)) as [j|].
  - f_equal. apply Z.eqb_eq. apply H. apply in_seq. lia.
  - discriminate H. apply in_seq. lia.
Qed.

Lemma EncodeToString_free_of_dot src :
  free_of "."%char (base64.EncodeToString src).
Proof.
  assert (H : forall n src, (List.length src <= n)%nat ->
                            free_of "."%char (base64.EncodeToString src)).
  { induction n as [|n IH]; intros [|a [|b [|c rest]]] Hlen; simpl in *;
      repeat split; try apply encode_not_dot; try lia.
    apply IH. lia. }
  eapply H; eauto.
Qed.

Lemma byte_of_Z_eq z b : z = byte_to_Z b -> byte_of_Z z = b.
Proof. intros ->. apply byte_of_to_Z. Qed.

Ltac bytes_back :=
  f_equal;
  repeat (apply (f_equal2 (@cons byte));
          [apply byte_of_Z_eq; Z.div_mod_to_equations; lia|]);
  try reflexivity.

Lemma DecodeString_EncodeToString src :
  base64.DecodeString (base64.EncodeToString src) = Some src.
Proof.
  assert (H : forall n src, (List.length src <= n)%nat ->
              base64.DecodeString (base64.EncodeToString src) = Some src).
  { induction n as [|n IH]; intros [|a [|b [|c rest]]] Hlen;
      try reflexivity; try (simpl in Hlen; lia).
    - pose proof (byte_to_Z_range a).
      cbn [base64.EncodeToString base64.DecodeString].
      rewrite !decode_encode by (Z.div_mod_to_equations; lia).
      bytes_back.
    - pose proof (byte_to_Z_range a). pose proof (byte_to_Z_range b).
      cbn [base64.EncodeToString base64.DecodeString].
      rewrite !decode_encode by (Z.div_mod_to_equations; lia).
      bytes_back.
    - pose proof (byte_to_Z_range a). pose proof (byte_to_Z_range b).
      pose proof (byte_to_Z_range c).
      cbn [base64.EncodeToString base64.DecodeString].
      rewrite !decode_encode by (Z.div_mod_to_equations; lia).
      rewrite IH by (simpl in Hlen; lia).
      bytes_back. }
  eapply H; eauto.
Qed.

(** ** Decimal numbers *)

Lemma string_of_uint_free_of d u :
  ~ In d (list_ascii_of_string "0123456789") ->
  free_of d (NilEmpty.string_of_uint u).
Proof.
  intros Hd. induction u; simpl; (split; [|assumption]) || exact I;
    intros E; apply Hd; rewrite <- E; simpl; tauto.
Qed.

Lemma Itoa_free_of d n :
  ~ In d (list_ascii_of_string "-0123456789") -> free_of d (Itoa n).
Proof.
  intros Hd.
  assert (Hd' : ~ In d (list_ascii_of_string "0123456789"))
    by (intros H; apply Hd; right; exact H).
  assert (Hz : forall u, free_of d (NilZero.string_of_uint u)).
  { intros u. destruct u; try apply (string_of_uint_free_of d _ Hd').
    simpl. split; [|exact I]. intros E. apply Hd'. rewrite <- E. simpl. tauto. }
  unfold Itoa. destruct (Z.to_int n); simpl.
  - apply Hz.
  - split; [|apply Hz]. intros E. apply Hd. rewrite <- E. simpl. tauto.
Qed.

Lemma Itoa_inj n m : Itoa n = Itoa m -> n = m.
Proof.
  unfold Itoa. intros H.
  assert (Hnn : forall z, Z.to_int z <> Decimal.Pos Decimal.Nil /\
                          Z.to_int z <> Decimal.Neg Decimal.Nil).
  { intros [|p|p]; simpl; split; try discriminate;
      intros [= E]; revert E; apply DecimalPos.Unsigned.to_uint_nonnil. }
  assert (E : Some (Z.to_int n) = Some (Z.to_int m)).
  { rewrite <- (NilZero.isi (Z.to_int n)) by apply Hnn.
    rewrite <- (NilZero.isi (Z.to_int m)) by apply Hnn.
    now rewrite H. }
  injection E as E.
  rewrite <- (DecimalZ.of_to n), <- (DecimalZ.of_to m). now rewrite E.
Qed.

(** ** Tokens *)

#[global] Opaque hmac.Sum.

Lemma split_dots_free a : free_of "."%char a -> jwt.split_dots a = [a].
Proof.
  induction a as [|c a IH]; simpl; [reflexivity|]. intros [Hc Ha].
  destruct (Ascii.eqb_spec c "."%char); [contradiction|].
  now rewrite (IH Ha).
Qed.

Lemma split_dots_cut a b :
  free_of "."%char a ->
  jwt.split_dots (a +++ String "."%char b) = a :: jwt.split_dots b.
Proof.
  induction a as [|c a IH]; simpl; [reflexivity|]. intros [Hc Ha].
  destruct (Ascii.eqb_spec c "."%char); [contradiction|].
  now rewrite (IH Ha).
Qed.

(** A token is cut back into the three segments it was joined from. *)
Lemma split_dots_joined h c sig :
  free_of "."%char h -> free_of "."%char c -> free_of "."%char sig ->
  jwt.split_dots ((h +++ String "."%char c) +++ String "."%char sig) = [h; c; sig].
Proof.
  intros Hh Hc Hs. rewrite append_assoc. simpl.
  rewrite (split_dots_cut h _ Hh), (split_dots_cut c _ Hc).
  now rewrite (split_dots_free sig Hs).
Qed.

Lemma Verify_Sign m sstr key :
  jwt.Verify m sstr (jwt.EncodeSegment (hmac.Sum key (bytes_of_string sstr))) key
  = None.
Proof.
  unfold jwt.Verify, jwt.DecodeSegment, jwt.EncodeSegment.
  rewrite DecodeString_EncodeToString. unfold hmac.Equal.
  now rewrite bytes_eqb_refl.
Qed.

(** Whatever [SignedString] returns without an error passes the signature
    check under the same key. *)
Lemma SignedString_verifies t key tokenString :
  jwt.SignedString t key = (tokenString, None) ->
  jwt.signature_verifies tokenString key = true.
Proof.
  unfold jwt.SignedString, jwt.SigningString, jwt.Sign.
  destruct (json_.Marshal (VMap (jwt.Header t))) as [e|h]; [discriminate|].
  destruct (json_.Marshal (VMap (jwt.Claims t))) as [e|c]; [discriminate|].
  intros [= <-]. unfold jwt.signature_verifies.
  change (?a +++ "." +++ ?b) with (a +++ String "."%char b).
  rewrite split_dots_joined by apply EncodeToString_free_of_dot.
  now rewrite Verify_Sign.
Qed.

Lemma split_dots_compact key h c :
  jwt.split_dots (compact key h c) =
  [jwt.EncodeSegment (bytes_of_string h);
   jwt.EncodeSegment (bytes_of_string c);
   jwt.EncodeSegment
     (hmac.Sum key (bytes_of_string (jwt.EncodeSegment (bytes_of_string h) +++ "."
                                     +++ jwt.EncodeSegment (bytes_of_string c))))].
Proof.
  unfold compact. cbv zeta.
  change (?a +++ "." +++ ?b) with (a +++ String "."%char b).
  apply split_dots_joined; apply EncodeToString_free_of_dot.
Qed.

Lemma payload_compact key h c : jwt.payload (compact key h c) = Some c.
Proof.
  unfold jwt.payload. rewrite split_dots_compact.
  unfold jwt.DecodeSegment, jwt.EncodeSegment.
  rewrite DecodeString_EncodeToString. simpl.
  unfold string_of_bytes, bytes_of_string.
  now rewrite string_of_list_byte_of_string.
Qed.

Lemma SignedString_claims now1 now2 key :
  jwt.SignedString
    (jwt.NewWithClaims jwt.SigningMethodHS256 (jwt_claims now1 now2)) key
  = (compact key header_text
       (claims_text (time.Unix now1) (time.Unix (time.Add now2 time.Minute))),
     None).
Proof. reflexivity. Qed.

Lemma generateJWT_ok w :
  generateJWT w = ((minted w, None), set_ticks (S (S (ticks w))) w).
Proof. reflexivity. Qed.

(** The claims text gives back the two numbers it was written from. *)
Lemma claims_text_inj iat exp iat' exp' :
  claims_text iat exp = claims_text iat' exp' -> iat = iat' /\ exp = exp'.
Proof.
  unfold claims_text. cbn -[Itoa]. intros H.
  injection H as H. rewrite !append_assoc in H. cbn -[Itoa] in H.
  apply cut_unique in H; try (apply Itoa_free_of; simpl; intuition discriminate).
  destruct H as [He H]. injection H as H.
  apply cut_unique in H; try (apply Itoa_free_of; simpl; intuition discriminate).
  destruct H as [Hi _].
  split; apply Itoa_inj; assumption.
Qed.

(** ** One run of [makeRequest] *)

Lemma encode_rpc_request method params :
  json_.encode (rpc_request method params) =
  match json_.encode params with
  | inl err => inl err
  | inr p => inr (envelope method p)
  end.
Proof.
  unfold rpc_request, envelope. simpl.
  destruct (json_.encode params); reflexivity.
Qed.

Lemma Marshal_rpc_request method params :
  json_.Marshal (rpc_request method params) =
  match json_.encode params with
  | inl err => inl err
  | inr p => inr (bytes_of_string (json_.render (envelope method p)))
  end.
Proof.
  unfold json_.Marshal. rewrite encode_rpc_request.
  destruct (json_.encode params); reflexivity.
Qed.

(** The run, step by step: where it stops, what it returns and what it
    leaves in the world. *)
Lemma makeRequest_run ctx method params w :
  makeRequest ctx method params w =
  match json_.Marshal (rpc_request method params) with
  | inl err => ((None, Some (Errorf_v "failed to marshal request: " err)), w)
  | inr body =>
    let w1 := set_ticks (S (S (ticks w))) w in
    match ctx with
    | nilContext =>
      ((None, Some (Errorf_v "failed to create request: "
                             (errorString "net/http: nil Context"))), w1)
    | _ =>
      match parseURL w (endpoint (self w)) with
      | Some err =>
        ((None, Some (Errorf_v "failed to create request: "
                               (urlError "parse" (endpoint (self w)) err))), w1)
      | None =>
        match ctx with
        | doneContext cause =>
          ((None, Some (Errorf_v "failed to make request: "
                                 (urlError "Post" (endpoint (self w)) cause))), w1)
        | _ =>
          match roundTrip w (wire w) (outbound w ctx body) with
          | http.Failed cause =>
            ((None, Some (Errorf_v "failed to make request: "
                                   (urlError "Post" (endpoint (self w)) cause))),
             log_request (outbound w ctx body) w1)
          | http.Answered resp =>
            (answer resp, count_close (log_request (outbound w ctx body) w1))
          end
        end
      end
    end
  end.
Proof.
  unfold makeRequest.
  destruct (json_.Marshal (rpc_request method params)) as [err|body];
    [reflexivity|].
  unfold bind at 1. rewrite generateJWT_ok.
  destruct w as [c wl tk pu rt wr cl].
  unfold answer, outbound, bind, this, ret, http_NewRequestWithContext,
    Client_Do, Body_Close.
  cbn -[minted Errorf_v Errorf_d json_.Decode Z.eqb].
  destruct ctx as [| |cause]; [reflexivity| |];
    (destruct (pu (endpoint c)) as [err|]; [reflexivity|]); [|reflexivity].
  cbn -[minted Errorf_v Errorf_d json_.Decode Z.eqb].
  match goal with
  | |- ?L = ?R =>
    match R with
    | context [rt wr ?r] =>
      match L with context [rt wr ?l] => change l with r end;
      destruct (rt wr r) as [e|resp]
    end
  end; [reflexivity|].
  destruct (negb (http.StatusCode resp =? http.StatusOK)); [reflexivity|].
  destruct (json_.Decode (http.Body resp)) as [result [err|]]; reflexivity.
Qed.

(** What is on the wire after a run, and what a sent request entails. *)
Lemma sent_nothing {A} (m : M A) w :
  wire (snd (m w)) = wire w -> sent m w = [].
Proof. unfold sent. intros ->. apply skipn_all. Qed.

Lemma sent_one {A} (m : M A) w req :
  wire (snd (m w)) = wire w ++ [req] -> sent m w = [req].
Proof.
  unfold sent. intros ->. rewrite skipn_app, skipn_all, Nat.sub_diag.
  reflexivity.
Qed.

Lemma sent_makeRequest ctx method params w req :
  In req (sent (makeRequest ctx method params) w) ->
  exists body,
    json_.Marshal (rpc_request method params) = inr body /\
    ctx = liveContext /\
    parseURL w (endpoint (self w)) = None /\
    req = outbound w ctx body /\
    sent (makeRequest ctx method params) w = [req] /\
    fst (makeRequest ctx method params w) =
    match roundTrip w (wire w) req with
    | http.Failed cause =>
      (None, Some (Errorf_v "failed to make request: "
                            (urlError "Post" (endpoint (self w)) cause)))
    | http.Answered resp => answer resp
    end.
Proof.
  intros Hin.
  pose proof (makeRequest_run ctx method params w) as Hrun.
  destruct (json_.Marshal (rpc_request method params)) as [err|body].
  { rewrite (sent_nothing _ w) in Hin by (now rewrite Hrun). destruct Hin. }
  cbv zeta in Hrun.
  destruct ctx as [| |cause].
  - rewrite (sent_nothing _ w) in Hin by (now rewrite Hrun). destruct Hin.
  - destruct (parseURL w (endpoint (self w))) as [err|].
    { rewrite (sent_nothing _ w) in Hin by (now rewrite Hrun). destruct Hin. }
    assert (Hs : sent (makeRequest liveContext method params) w
                 = [outbound w liveContext body]).
    { apply sent_one. rewrite Hrun.
      destruct (roundTrip w (wire w) (outbound w liveContext body));
        reflexivity. }
    rewrite Hs in Hin. destruct Hin as [<-|[]].
    exists body. repeat split; try assumption. rewrite Hrun.
    destruct (roundTrip w (wire w) (outbound w liveContext body));
      reflexivity.
  - assert (Hs : sent (makeRequest (doneContext cause) method params) w = []).
    { apply sent_nothing. rewrite Hrun.
      destruct (parseURL w (endpoint (self w))); reflexivity. }
    rewrite Hs in Hin. destruct Hin.
Qed.

(** Every request sent is a POST to the endpoint of the client, with the
    token minted for it as bearer. *)
Lemma sent_headers ctx method params w req :
  In req (sent (makeRequest ctx method params) w) ->
  http.Method req = "POST" /\
  http.URL req = endpoint (self w) /\
  http.Header_Get "Content-Type" req = "application/json" /\
  http.Header_Get "Authorization" req = "Bearer " +++ minted w.
Proof.
  intros Hin.
  destruct (sent_makeRequest _ _ _ _ _ Hin) as (body & _ & _ & _ & -> & _).
  repeat split.
Qed.


Lemma invoke_makeRequest ctx op :
  exists params, invoke ctx op = makeRequest ctx (method_of op) (VSlice params).
Proof. destruct op; eexists; reflexivity. Qed.

(** ** The envelope and the parameters *)

(** C2. Every request that [ForkchoiceUpdated] or [NewPayload] hands to the
    transport carries a JSON-RPC object with [id] 1, [jsonrpc] "2.0" and as
    [method] the one name of the operation, [engine_forkchoiceUpdatedV1] or
    [engine_newPayloadV1]. *)
Theorem envelope_invariants ctx op w req :
  In req (sent (invoke ctx op) w) ->
  exists method params,
    http.reqBody req =
    bytes_of_string
      (json_.render (JObject [("id", JNumber "1");
                              ("jsonrpc", JString "2.0");
                              ("method", JString method);
                              ("params", params)])) /\
    method = match op with
             | OpForkchoiceUpdated _ _ => "engine_forkchoiceUpdatedV1"
             | OpNewPayload _ => "engine_newPayloadV1"
             end.
Proof.
  intros Hin. destruct (invoke_makeRequest ctx op) as [ps E].
  rewrite E in Hin.
  destruct (sent_makeRequest _ _ _ _ _ Hin) as (body & HM & _ & _ & -> & _).
  rewrite Marshal_rpc_request in HM.
  destruct (json_.encode (VSlice ps)) as [err|p]; [discriminate|].
  injection HM as <-.
  exists (method_of op), p. split; [reflexivity | destruct op; reflexivity].
Qed.

Lemma envelope_invariants_witness :
  let w := demo_world 1700000000000000000 1 (answer_with 200 syncing) in
  let op := OpNewPayload (Some [("blockNumber", VString "0x1")]) in
  let req := hd no_request (sent (invoke liveContext op) w) in
  In req (sent (invoke liveContext op) w) /\
  exists method params,
    http.reqBody req =
    bytes_of_string
      (json_.render (JObject [("id", JNumber "1");
                              ("jsonrpc", JString "2.0");
                              ("method", JString method);
                              ("params", params)])) /\
    method = "engine_newPayloadV1".
Proof.
  intros w op req.
  assert (H : In req (sent (invoke liveContext op) w))
    by (vm_compute; left; reflexivity).
  split; [exact H | exact (envelope_invariants liveContext op w req H)].
Defined.

Lemma sent_body ctx method params w req :
  In req (sent (makeRequest ctx method params) w) ->
  exists p,
    json_.encode params = inr p /\
    http.reqBody req = bytes_of_string (json_.render (envelope method p)).
Proof.
  intros Hin.
  destruct (sent_makeRequest _ _ _ _ _ Hin) as (body & HM & _ & _ & -> & _).
  rewrite Marshal_rpc_request in HM.
  destruct (json_.encode params) as [err|p]; [discriminate|].
  injection HM as <-. exists p. split; reflexivity.
Qed.

(** C3. The request [ForkchoiceUpdated] sends has as [params] the array of
    the state alone when [attributes] is nil, and the array of the state and
    the attributes, in this order, when it is not; the second element is the
    attributes object, never [null]. *)
Theorem forkchoice_params ctx state attributes w req :
  In req (sent (ForkchoiceUpdated ctx state attributes) w) ->
  http.reqBody req =
  bytes_of_string
    (json_.render
       (JObject [("id", JNumber "1");
                 ("jsonrpc", JString "2.0");
                 ("method", JString "engine_forkchoiceUpdatedV1");
                 ("params",
                  JArray match attributes with
                         | None => [state_json state]
                         | Some a => [state_json state; attributes_json a]
                         end)])).
Proof.
  intros Hin. unfold ForkchoiceUpdated in Hin.
  destruct (sent_body _ _ _ _ _ Hin) as (p & Hp & ->).
  destruct attributes as [a|]; simpl in Hp; injection Hp as <-; reflexivity.
Qed.

Lemma forkchoice_params_witness :
  let w := demo_world 1700000000000000000 1 (answer_with 200 syncing) in
  let req := hd no_request
                (sent (ForkchoiceUpdated liveContext demo_state (Some demo_attributes)) w) in
  In req (sent (ForkchoiceUpdated liveContext demo_state (Some demo_attributes)) w) /\
  http.reqBody req =
  bytes_of_string
    (json_.render
       (JObject [("id", JNumber "1");
                 ("jsonrpc", JString "2.0");
                 ("method", JString "engine_forkchoiceUpdatedV1");
                 ("params",
                  JArray [state_json demo_state; attributes_json demo_attributes])])).
Proof.
  intros w req.
  assert (H : In req (sent (ForkchoiceUpdated liveContext demo_state
                                               (Some demo_attributes)) w))
    by (vm_compute; left; reflexivity).
  split; [exact H|].
  exact (forkchoice_params liveContext demo_state (Some demo_attributes) w req H).
Defined.



(** ** Responses *)







(** ** The receiver and the returned pair *)

Lemma makeRequest_self ctx method params w :
  self (snd (makeRequest ctx method params w)) = self w.
Proof.
  rewrite makeRequest_run.
  destruct (json_.Marshal (rpc_request method params)); [reflexivity|].
  cbv zeta.
  destruct ctx; try reflexivity;
    destruct (parseURL w (endpoint (self w))); try reflexivity.
  destruct (roundTrip w (wire w) _); reflexivity.
Qed.

(** C9. No call changes the client: the struct the receiver points to, with
    its endpoint, its secret and its HTTP client, is after [generateJWT],
    [makeRequest], [ForkchoiceUpdated] and [NewPayload] what it was before,
    whether the call fails or not. *)
Theorem client_is_immutable ctx method params op w :
  self (snd (generateJWT w)) = self w /\
  self (snd (makeRequest ctx method params w)) = self w /\
  self (snd (invoke ctx op w)) = self w.
Proof.
  split; [reflexivity|]. split; [apply makeRequest_self|].
  destruct (invoke_makeRequest ctx op) as [ps ->]. apply makeRequest_self.
Qed.

Lemma makeRequest_result_or_error ctx method params w result err :
  fst (makeRequest ctx method params w) = (result, Some err) -> result = None.
Proof.
  rewrite makeRequest_run.
  destruct (json_.Marshal (rpc_request method params)).
  { now intros [= <- _]. }
  cbv zeta.
  assert (Ha : forall resp, answer resp = (result, Some err) -> result = None).
  { intros resp. unfold answer.
    destruct (negb _); [now intros [= <- _]|].
    destruct (json_.Decode _) as [r [e|]]; [now intros [= <- _]|discriminate]. }
  destruct ctx; [now intros [= <- _]| |];
    (destruct (parseURL w (endpoint (self w))); [now intros [= <- _]|]).
  - destruct (roundTrip w (wire w) _); [now intros [= <- _]|]. apply Ha.
  - now intros [= <- _].
Qed.

(** C10. Whenever [makeRequest], and so [ForkchoiceUpdated] or
    [NewPayload], returns an error, the map it returns with it is nil. *)
Theorem result_and_error_exclusive ctx w result err :
  (forall method params,
      fst (makeRequest ctx method params w) = (result, Some err) ->
      result = None) /\
  (forall op,
      fst (invoke ctx op w) = (result, Some err) -> result = None).
Proof.
  split.
  - intros method params. apply makeRequest_result_or_error.
  - intros op. destruct (invoke_makeRequest ctx op) as [ps ->].
    apply makeRequest_result_or_error.
Qed.

Lemma result_and_error_exclusive_witness :
  let w := demo_world 1700000000000000000 1 (answer_with 500 syncing) in
  let op := OpNewPayload (Some [("blockNumber", VString "0x1")]) in
  let err := errorString "unexpected HTTP status: 500" in
  fst (invoke liveContext op w) = (None, Some err) /\ @None gomap = None.
Proof.
  intros w op err.
  assert (H : fst (invoke liveContext op w) = (None, Some err))
    by (vm_compute; reflexivity).
  split; [exact H|].
  exact (proj2 (result_and_error_exclusive liveContext w None err) op H).
Defined.

(** ** Kinds of failure *)







(** ** The token *)

Lemma Unix_Add_Minute t : time.Unix (time.Add t time.Minute) = time.Unix t + 60.
Proof.
  unfold time.Unix, time.Add, time.Minute, time.Second.
  Z.div_mod_to_equations; lia.
Qed.

(** The claims map holds the two fields and nothing else. *)
Lemma jwt_claims_fields now1 now2 :
  jwt_claims now1 now2 =
  [("exp", VInt (time.Unix now2 + 60)); ("iat", VInt (time.Unix now1))].
Proof. unfold jwt_claims. rewrite Unix_Add_Minute. reflexivity. Qed.

Lemma jwt_claims_keys now1 now2 :
  map_keys (jwt_claims now1 now2) = ["exp"; "iat"].
Proof. reflexivity. Qed.

(** What every call mints: no error, a payload with [iat] from the first
    reading of the clock and [exp] from the second, a signature that
    verifies under the secret of the client, and two readings consumed. *)
Lemma generateJWT_mints w :
  let '((tokenString, err), w') := generateJWT w in
  err = None /\
  jwt.payload tokenString =
    Some (claims_text (time.Unix (wall w (ticks w)))
                      (time.Unix (wall w (S (ticks w))) + 60)) /\
  jwt.signature_verifies tokenString (jwtSecret (self w)) = true /\
  ticks w' = S (S (ticks w)).
Proof.
  rewrite generateJWT_ok. split; [reflexivity|]. split; [|split].
  - unfold minted. rewrite payload_compact, Unix_Add_Minute. reflexivity.
  - apply (SignedString_verifies
             (jwt.NewWithClaims jwt.SigningMethodHS256
                (jwt_claims (wall w (ticks w)) (wall w (S (ticks w)))))).
    reflexivity.
  - reflexivity.
Qed.

(** When the two readings fall in the same second, the window is 60 s. *)
Lemma window_same_second now1 now2 :
  time.Unix now1 = time.Unix now2 ->
  time.Unix (time.Add now2 time.Minute) = time.Unix now1 + 60.
Proof. intros ->. apply Unix_Add_Minute. Qed.

(** With a clock that does not go back, the window is never shorter. *)
Lemma window_at_least now1 now2 :
  now1 <= now2 ->
  time.Unix now1 + 60 <= time.Unix (time.Add now2 time.Minute).
Proof.
  intros H. rewrite Unix_Add_Minute. unfold time.Unix, time.Second.
  Z.div_mod_to_equations; lia.
Qed.

(** C1. The code at the input where the claim fails: the first reading of
    the clock is the last nanosecond of second 1699999999 and the second
    reading, one nanosecond later, is in second 1700000000.  The token
    minted has [iat] 1699999999 and [exp] 1700000060, a window of 61
    seconds; its signature verifies. *)
Theorem generateJWT_across_a_second :
  let w := demo_world 1699999999999999999 1 (answer_with 200 syncing) in
  let tokenString := fst (fst (generateJWT w)) in
  wall w 0 = 1699999999 * time.Second + 999999999 /\
  wall w 1 = 1700000000 * time.Second /\
  jwt.payload tokenString = Some (claims_text 1699999999 (1699999999 + 61)) /\
  jwt.signature_verifies tokenString (jwtSecret (self w)) = true.
Proof.
  intros w tokenString.
  split; [reflexivity|]. split; [reflexivity|].
  pose proof (generateJWT_mints w) as H. subst tokenString.
  destruct (generateJWT w) as [[tok err] w'].
  destruct H as (_ & Hp & Hv & _). cbn [fst]. split; [|exact Hv].
  rewrite Hp. reflexivity.
Qed.

(** C7 as stated fails: with a clock that gains a nanosecond at every
    reading, two calls in a row, made at different times, mint the same
    token: same [iat], same signature. *)
Lemma generateJWT_same_second_same_token :
  let w := demo_world 1700000000000000000 1 (answer_with 200 syncing) in
  let '((token1, _), w1) := generateJWT w in
  let '((token2, _), _) := generateJWT w1 in
  wall w (ticks w) < wall w1 (ticks w1) /\
  token1 = token2 /\
  jwt.payload token1 = jwt.payload token2 /\
  jwt.signature token1 = jwt.signature token2.
Proof.
  intros w. rewrite generateJWT_ok.
  rewrite (generateJWT_ok (set_ticks (S (S (ticks w))) w)).
  assert (E : minted w = minted (set_ticks (S (S (ticks w))) w)) by reflexivity.
  rewrite <- E. repeat split.
Qed.

(** C7, amended. Two calls whose first readings of the clock fall in
    different seconds mint tokens that differ in their [iat] claim and
    differ as tokens; each call reads the clock anew, twice, and returns
    what it minted from these readings. *)
Theorem generateJWT_fresh_across_seconds w w' :
  time.Unix (wall w (ticks w)) <> time.Unix (wall w' (ticks w')) ->
  exists iat exp iat' exp',
    jwt.payload (fst (fst (generateJWT w))) = Some (claims_text iat exp) /\
    jwt.payload (fst (fst (generateJWT w'))) = Some (claims_text iat' exp') /\
    iat = time.Unix (wall w (ticks w)) /\
    iat' = time.Unix (wall w' (ticks w')) /\
    iat <> iat' /\
    fst (fst (generateJWT w)) <> fst (fst (generateJWT w')) /\
    ticks (snd (generateJWT w)) = S (S (ticks w)) /\
    ticks (snd (generateJWT w')) = S (S (ticks w')).
Proof.
  intros Hne.
  pose proof (generateJWT_mints w) as H.
  pose proof (generateJWT_mints w') as H'.
  destruct (generateJWT w) as [[tok err] w1].
  destruct (generateJWT w') as [[tok' err'] w1'].
  destruct H as (_ & Hp & _ & Ht). destruct H' as (_ & Hp' & _ & Ht').
  cbn [fst snd].
  do 4 eexists. split; [exact Hp|]. split; [exact Hp'|].
  split; [reflexivity|]. split; [reflexivity|]. split; [exact Hne|].
  split; [|split; assumption].
  intros E. rewrite E, Hp' in Hp.
  pose proof (f_equal (fun o => match o with
                                | Some x => x
                                | None => EmptyString
                                end) Hp) as Hc.
  cbv beta iota in Hc.
  apply claims_text_inj in Hc. destruct Hc as [Hi _]. congruence.
Qed.

(** At these two worlds the signatures differ as well. *)
Example signatures_differ_across_seconds :
  let w := demo_world 1700000000000000000 1 (answer_with 200 syncing) in
  let w' := demo_world 1700000001000000000 1 (answer_with 200 syncing) in
  jwt.signature (fst (fst (generateJWT w))) =
    Some "vre3BWgilngRwqTeBTYsW8QJ8e2D6y4Ir8TfZaUMH2I" /\
  jwt.signature (fst (fst (generateJWT w))) <>
    jwt.signature (fst (fst (generateJWT w'))).
Proof.
  intros w w'. split; [vm_compute; reflexivity|]. vm_compute. discriminate.
Qed.

Lemma generateJWT_fresh_across_seconds_witness :
  let w := demo_world 1700000000000000000 1 (answer_with 200 syncing) in
  let w' := demo_world 1700000001000000000 1 (answer_with 200 syncing) in
  time.Unix (wall w (ticks w)) <> time.Unix (wall w' (ticks w')) /\
  fst (fst (generateJWT w)) <> fst (fst (generateJWT w')).
Proof.
  intros w w'.
  assert (H : time.Unix (wall w (ticks w)) <> time.Unix (wall w' (ticks w')))
    by (vm_compute; discriminate).
  split; [exact H|].
  destruct (generateJWT_fresh_across_seconds w w' H)
    as (_ & _ & _ & _ & _ & _ & _ & _ & _ & Hd & _).
  exact Hd.
Defined.

(** * Further properties of the code *)

(** ** What a call does to the world *)

(** The cases of a run, for proofs by cases. *)
Ltac run_cases ctx method params w :=
  rewrite ?(makeRequest_run ctx method params w);
  destruct (json_.Marshal (rpc_request method params)) as [?err|?body];
  cbv zeta;
  [| destruct ctx as [| |?cause];
     [| destruct (parseURL w (endpoint (self w))) as [?err|];
        [| destruct (roundTrip w (wire w) (outbound w liveContext _))
             as [?err|?resp] eqn:?Hrt]
      | destruct (parseURL w (endpoint (self w))) as [?err|]]].




Lemma minted_verifies w :
  jwt.signature_verifies (minted w) (jwtSecret (self w)) = true.
Proof.
  pose proof (generateJWT_mints w) as H. rewrite generateJWT_ok in H.
  apply H.
Qed.

Lemma minted_payload w :
  jwt.payload (minted w) =
  Some (claims_text (time.Unix (wall w (ticks w)))
                    (time.Unix (wall w (S (ticks w))) + 60)).
Proof.
  pose proof (generateJWT_mints w) as H. rewrite generateJWT_ok in H.
  apply H.
Qed.


(** X2. A payload that [encoding/json] refuses stops [NewPayload] before
    anything else happens: the call returns the nil map and [failed to
    marshal request: ...] with the cause, and the world is as it was: the
    clock is not read, no token is minted, nothing is sent. *)
Theorem unencodable_payload_stops_early ctx payload w cause :
  json_.encode (value_of_map payload) = inl cause ->
  NewPayload ctx payload w =
  ((None, Some (errorString ("failed to marshal request: " +++ Error cause))), w).
Proof.
  intros He. unfold NewPayload.
  rewrite makeRequest_run, Marshal_rpc_request.
  cbn [json_.encode map json_.sequence]. rewrite He. reflexivity.
Qed.

Lemma unencodable_payload_stops_early_witness :
  let w := demo_world 1700000000000000000 1 (answer_with 200 syncing) in
  let payload := Some [("notify", VUnsupported "type: chan int")] in
  json_.encode (value_of_map payload) = inl (UnsupportedTypeError "type: chan int") /\
  NewPayload liveContext payload w =
  ((None, Some (errorString
     "failed to marshal request: json: unsupported type: chan int")), w).
Proof.
  intros w payload.
  assert (H : json_.encode (value_of_map payload)
              = inl (UnsupportedTypeError "type: chan int")) by reflexivity.
  split; [exact H|].
  exact (unencodable_payload_stops_early liveContext payload w _ H).
Defined.

Lemma encode_forkchoice_params state attributes :
  json_.encode
    (VSlice match attributes with
            | Some a => [value_of_state state] ++ [VPtr (value_of_attributes a)]
            | None => [value_of_state state]
            end) =
  inr (JArray match attributes with
              | None => [state_json state]
              | Some a => [state_json state; attributes_json a]
              end).
Proof. destruct attributes; reflexivity. Qed.



(** X4. Without a context that can still proceed, nothing reaches the
    network: with a nil context, or one that is cancelled or past its
    deadline when the call is made, the call fails, returns the nil map,
    sends no request and closes no body. *)
Theorem no_request_without_live_context ctx op w :
  ctx <> liveContext ->
  sent (invoke ctx op) w = [] /\
  fst (fst (invoke ctx op w)) = None /\
  snd (fst (invoke ctx op w)) <> None /\
  closed (snd (invoke ctx op w)) = closed w.
Proof.
  intros Hc. destruct (invoke_makeRequest ctx op) as [ps ->].
  assert (Hw : wire (snd (makeRequest ctx (method_of op) (VSlice ps) w)) = wire w
               /\ fst (fst (makeRequest ctx (method_of op) (VSlice ps) w)) = None
               /\ snd (fst (makeRequest ctx (method_of op) (VSlice ps) w)) <> None
               /\ closed (snd (makeRequest ctx (method_of op) (VSlice ps) w))
                  = closed w).
  { run_cases ctx (method_of op) (VSlice ps) w; try contradiction;
      repeat split; discriminate. }
  destruct Hw as (Hw & H1 & H2 & H3).
  split; [apply sent_nothing; exact Hw|]. split; [exact H1|]. split; assumption.
Qed.

Lemma no_request_without_live_context_witness :
  let w := demo_world 1700000000000000000 1 (answer_with 200 syncing) in
  let op := OpNewPayload None in
  doneContext DeadlineExceeded <> liveContext /\
  sent (invoke (doneContext DeadlineExceeded) op) w = [].
Proof.
  intros w op.
  assert (H : doneContext DeadlineExceeded <> liveContext) by discriminate.
  split; [exact H|].
  exact (proj1 (no_request_without_live_context _ op w H)).
Defined.

(** X5. A nil context is reported by [ForkchoiceUpdated] as [failed to
    create request: net/http: nil Context], for every state and attributes
    and whatever the endpoint is; the token has been minted by then (the
    clock was read twice) and is dropped. *)
Theorem nil_context_error state attributes w :
  fst (ForkchoiceUpdated nilContext state attributes w) =
  (None, Some (errorString "failed to create request: net/http: nil Context")) /\
  ticks (snd (ForkchoiceUpdated nilContext state attributes w)) = S (S (ticks w)) /\
  wire (snd (ForkchoiceUpdated nilContext state attributes w)) = wire w.
Proof.
  unfold ForkchoiceUpdated. rewrite makeRequest_run, Marshal_rpc_request.
  rewrite encode_forkchoice_params. repeat split.
Qed.

(** X6. The body of a response is closed exactly once on every path that
    received one - status other than 200, body that does not decode, success
    - and nothing is closed when no response came. *)
Theorem body_closed_once ctx op w :
  closed (snd (invoke ctx op w)) =
  (closed w +
   match sent (invoke ctx op) w with
   | [req] =>
     match roundTrip w (wire w) req with
     | http.Answered _ => 1
     | http.Failed _ => 0
     end
   | _ => 0
   end)%nat.
Proof.
  destruct (invoke_makeRequest ctx op) as [ps ->].
  set (m := makeRequest ctx (method_of op) (VSlice ps)).
  destruct (sent m w) as [|req l] eqn:Hs.
  - assert (H : closed (snd (m w)) = closed w); [|rewrite H; lia].
    subst m. unfold sent in Hs. revert Hs.
    run_cases ctx (method_of op) (VSlice ps) w; try reflexivity;
      cbn [snd wire log_request count_close set_ticks];
      rewrite skipn_app, skipn_all, Nat.sub_diag; discriminate.
  - assert (Hin : In req (sent m w)) by (rewrite Hs; left; reflexivity).
    subst m.
    destruct (sent_makeRequest _ _ _ _ _ Hin)
      as (body & HM & -> & HP & -> & Hone & _).
    rewrite Hs in Hone. injection Hone as ->.
    rewrite makeRequest_run, HM. cbv zeta. rewrite HP.
    destruct (roundTrip w (wire w) _); cbn; lia.
Qed.



(** ** Tokens and requests *)

(** X8. [generateJWT] never fails, whatever the secret is, the empty one
    included: it returns a nil error and a token of three segments whose
    signature verifies under the secret of the client and whose payload
    holds [iat], the second of the first reading of the clock, and [exp],
    the second of the next reading plus 60. *)
Theorem generateJWT_always_verifies w :
  snd (fst (generateJWT w)) = None /\
  jwt.signature_verifies (fst (fst (generateJWT w))) (jwtSecret (self w)) = true /\
  jwt.payload (fst (fst (generateJWT w))) =
  Some (claims_text (time.Unix (wall w (ticks w)))
                    (time.Unix (wall w (S (ticks w))) + 60)) /\
  exists h c sig, jwt.split_dots (fst (fst (generateJWT w))) = [h; c; sig].
Proof.
  rewrite generateJWT_ok. cbn [fst snd].
  split; [reflexivity|]. split; [apply minted_verifies|].
  split; [apply minted_payload|].
  unfold minted. rewrite split_dots_compact. do 3 eexists. reflexivity.
Qed.

(** X9. With a clock that does not go back and gains less than a second
    between the two readings of [generateJWT], the window written in the
    token is 60 or 61 seconds, never less and never more. *)
Theorem window_is_60_or_61 w :
  wall w (ticks w) <= wall w (S (ticks w)) ->
  wall w (S (ticks w)) < wall w (ticks w) + time.Second ->
  exists iat exp,
    jwt.payload (fst (fst (generateJWT w))) = Some (claims_text iat exp) /\
    (exp = iat + 60 \/ exp = iat + 61).
Proof.
  intros H1 H2. rewrite generateJWT_ok. cbn [fst].
  do 2 eexists. split; [apply minted_payload|].
  unfold time.Unix, time.Second in *.
  Z.div_mod_to_equations; lia.
Qed.

Lemma window_is_60_or_61_witness :
  let w := demo_world 1700000000000000000 1 (answer_with 200 syncing) in
  wall w (ticks w) <= wall w (S (ticks w)) /\
  wall w (S (ticks w)) < wall w (ticks w) + time.Second /\
  exists iat exp,
    jwt.payload (fst (fst (generateJWT w))) = Some (claims_text iat exp) /\
    (exp = iat + 60 \/ exp = iat + 61).
Proof.
  intros w.
  assert (H1 : wall w (ticks w) <= wall w (S (ticks w))) by (vm_compute; discriminate).
  assert (H2 : wall w (S (ticks w)) < wall w (ticks w) + time.Second)
    by (vm_compute; reflexivity).
  split; [exact H1|]. split; [exact H2|].
  exact (window_is_60_or_61 w H1 H2).
Defined.







(** X13. The body of a request is decided by the operation and its
    arguments alone: the same call made by any two clients, under any
    contexts, at any times, sends the same bytes; the secret, the clock and
    the endpoint leave no trace in the body. *)
Theorem body_depends_on_arguments_only ctx1 ctx2 op w1 w2 req1 req2 :
  In req1 (sent (invoke ctx1 op) w1) ->
  In req2 (sent (invoke ctx2 op) w2) ->
  http.reqBody req1 = http.reqBody req2.
Proof.
  intros H1 H2.
  assert (E : exists ps, invoke ctx1 op = makeRequest ctx1 (method_of op) (VSlice ps)
                      /\ invoke ctx2 op = makeRequest ctx2 (method_of op) (VSlice ps))
    by (destruct op; eexists; split; reflexivity).
  destruct E as (ps & E1 & E2). rewrite E1 in H1. rewrite E2 in H2.
  destruct (sent_body _ _ _ _ _ H1) as (p1 & Hp1 & ->).
  destruct (sent_body _ _ _ _ _ H2) as (p2 & Hp2 & ->).
  congruence.
Qed.

Lemma body_depends_on_arguments_only_witness :
  let w1 := demo_world 1700000000000000000 1 (answer_with 200 syncing) in
  let w2 := with_self (NewEngineClient "http://10.0.0.7:8551"
                                       (bytes_of_string "another secret"))
                      (demo_world 1800000000000000000 7 (http.Failed EOF)) in
  let op := OpForkchoiceUpdated demo_state (Some demo_attributes) in
  let req1 := hd no_request (sent (invoke liveContext op) w1) in
  let req2 := hd no_request (sent (invoke liveContext op) w2) in
  In req1 (sent (invoke liveContext op) w1) /\
  In req2 (sent (invoke liveContext op) w2) /\
  http.reqBody req1 = http.reqBody req2.
Proof.
  intros w1 w2 op req1 req2.
  assert (H1 : In req1 (sent (invoke liveContext op) w1))
    by (vm_compute; left; reflexivity).
  assert (H2 : In req2 (sent (invoke liveContext op) w2))
    by (vm_compute; left; reflexivity).
  split; [exact H1|]. split; [exact H2|].
  exact (body_depends_on_arguments_only liveContext liveContext op w1 w2
           req1 req2 H1 H2).
Defined.

(** ** The program *)










(** ** The status in the error *)


